(** * A shallow embedding of [main.py] (Daily Portfolio Update agent)

    The Python program is a sequential pipeline: token exchange, holdings
    fetch, per-holding insight fetch, message composition, delivery.  Its
    values are decoded JSON documents; its effects are logging, printing and
    HTTP calls to external services; its failures are Python exceptions.

    - decoded JSON values are the inductive [json]; a Python [dict] from
      [json.loads] is an association list (already free of duplicate keys);
    - Python floats are kept as their decimal value [m * 10^e] (see [pyfloat]);
    - strings are Rocq byte strings: the UTF-8 bytes of the source literals;
    - effects are a writer of [event]s combined with an exception result,
      the small monad [M];
    - the external services (TOTP generator, Groww SDK, HTTP endpoints,
      Twilio) are the fields of a [world] record: oracles whose answers are
      arbitrary, so every theorem quantifies over them. *)

From Stdlib Require Import String Ascii List ZArith NArith Bool Lia.
Import ListNotations.
Open Scope string_scope.
Set Warnings "-register-all".

(** ** Python values *)

(** A float is [PFin m e], of value [m * 10^e], or an infinity, or NaN.
    The decimal value of a literal is kept exactly; Python stores the
    nearest binary double instead, which changes the two-decimal rendering
    only for values within half a binary ulp of a rounding tie.  Negative
    zero and the overflow of huge literals to infinity are not modelled. *)
Inductive pyfloat :=
| PFin (m : Z) (e : Z)
| PInf (neg : bool)
| PNaN.

Inductive json :=
| JNull
| JBool (b : bool)
| JInt (z : Z)
| JFloat (f : pyfloat)
| JStr (s : string)
| JList (l : list json)
| JDict (kvs : list (string * json)).

Fixpoint lookup (k : string) (kvs : list (string * json)) : option json :=
  match kvs with
  | [] => None
  | (k', v) :: rest => if String.eqb k k' then Some v else lookup k rest
  end.

(** Python truthiness ([bool(x)]). *)
Definition truthy (v : json) : bool :=
  match v with
  | JNull => false
  | JBool b => b
  | JInt z => negb (Z.eqb z 0)
  | JFloat (PFin m _) => negb (Z.eqb m 0)
  | JFloat _ => true
  | JStr s => negb (String.eqb s "")
  | JList l => match l with [] => false | _ => true end
  | JDict kvs => match kvs with [] => false | _ => true end
  end.

Definition is_dict (v : json) : bool :=
  match v with JDict _ => true | _ => false end.

Definition is_list (v : json) : bool :=
  match v with JList _ => true | _ => false end.

(** An environment variable read with [os.getenv]: [None] or a string. *)
Definition env_truthy (v : option string) : bool :=
  match v with None => false | Some s => negb (String.eqb s "") end.

(** ** Python exceptions, events and the effect monad *)

Inductive exn :=
| AttributeError
| KeyError
| TypeError
| ValueError
| RuntimeError (msg : string)
| HTTPError (status : Z)
| RequestException
| JSONDecodeError
| ServiceError (msg : string).

Inductive level := Info | Warning | Error | Exception.

Inductive endpoint := GrowwToken | GrowwHoldings | PerplexityChat | TwilioSend.

Inductive event :=
| ELog (lv : level) (fmt : string)
| EHttp (ep : endpoint)
| EPrint (s : string).

(** A computation returns the events it emitted and either the exception
    it raised or its value. *)
Definition M (A : Type) : Type := (list event * (exn + A))%type.

Definition ret {A} (a : A) : M A := ([], inr a).

Definition throw {A} (e : exn) : M A := ([], inl e).

Definition bind {A B} (m : M A) (f : A -> M B) : M B :=
  match m with
  | (t, inl e) => (t, inl e)
  | (t, inr a) => let (t', r) := f a in (app t t', r)
  end.

Notation "x <- m ;; k" := (bind m (fun x => k))
  (at level 61, m at next level, right associativity).
Notation "m ;;; k" := (bind m (fun _ => k))
  (at level 61, right associativity).

Definition emit (ev : event) : M unit := ([ev], inr tt).
Definition log (lv : level) (fmt : string) : M unit := emit (ELog lv fmt).
Definition print (s : string) : M unit := emit (EPrint s).

Definition lift {A} (r : exn + A) : M A := ([], r).

(** [try: m except Exception as e: ...]: the events of [m] are kept and its
    exception becomes a value. *)
Definition try_ {A} (m : M A) : M (exn + A) :=
  match m with (t, r) => (t, inr r) end.

(** [d.get(k)] returns [None] (here [JNull]) for a missing key and raises
    [AttributeError] when [d] is not a dict. *)
Definition get (o : json) (k : string) : M json :=
  match o with
  | JDict kvs => ret (match lookup k kvs with Some v => v | None => JNull end)
  | _ => throw AttributeError
  end.

(** [d.get(k, default)]. *)
Definition get_d (o : json) (k : string) (dflt : json) : M json :=
  match o with
  | JDict kvs => ret (match lookup k kvs with Some v => v | None => dflt end)
  | _ => throw AttributeError
  end.

(** Python's short-circuit [a or b]. *)
Definition por (a : M json) (b : M json) : M json :=
  x <- a ;; if truthy x then ret x else b.

(** ** Python string operations on byte strings *)

(** [str.isspace] on one byte: the ASCII whitespace of Python's [str]
    (tab, newline, vertical tab, form feed, carriage return, the separators
    0x1c-0x1f and space).  Non-ASCII whitespace is multi-byte in UTF-8 and
    is not recognised by this byte-level model. *)
Definition is_space (c : ascii) : bool :=
  let n := nat_of_ascii c in
  (((9 <=? n) && (n <=? 13)) || ((28 <=? n) && (n <=? 32)))%nat.

(** [s.split()] with no separator: the maximal runs of non-whitespace. *)
Fixpoint split_go (cur : string) (s : string) : list string :=
  match s with
  | EmptyString => match cur with EmptyString => [] | _ => [cur] end
  | String c s' =>
      if is_space c then
        match cur with
        | EmptyString => split_go EmptyString s'
        | _ => cur :: split_go EmptyString s'
        end
      else split_go (cur ++ String c EmptyString) s'
  end.

Definition py_split (s : string) : list string := split_go EmptyString s.

(** [sep.join(l)]. *)
Fixpoint py_join (sep : string) (l : list string) : string :=
  match l with
  | [] => EmptyString
  | [x] => x
  | x :: xs => x ++ sep ++ py_join sep xs
  end.

Fixpoint lstrip (s : string) : string :=
  match s with
  | EmptyString => EmptyString
  | String c s' => if is_space c then lstrip s' else s
  end.

Fixpoint srev (s : string) : string :=
  match s with
  | EmptyString => EmptyString
  | String c s' => srev s' ++ String c EmptyString
  end.

Definition rstrip (s : string) : string := srev (lstrip (srev s)).

(** [s.strip()]. *)
Definition py_strip (s : string) : string := rstrip (lstrip s).

Fixpoint last_char (s : string) : option ascii :=
  match s with
  | EmptyString => None
  | String c EmptyString => Some c
  | String _ s' => last_char s'
  end.

(** [s.endswith(".")]. *)
Definition ends_with_dot (s : string) : bool :=
  match last_char s with
  | Some c => Ascii.eqb c "."%char
  | None => false
  end.

(** [s.upper()] on ASCII letters; other bytes are left unchanged. *)
Definition upper_char (c : ascii) : ascii :=
  let n := nat_of_ascii c in
  if ((97 <=? n) && (n <=? 122))%nat then ascii_of_nat (n - 32) else c.

Fixpoint py_upper (s : string) : string :=
  match s with
  | EmptyString => EmptyString
  | String c s' => String (upper_char c) (py_upper s')
  end.

(** Decimal digits of a natural number. *)
Fixpoint digits_go (fuel : nat) (n : N) (acc : string) : string :=
  match fuel with
  | O => acc
  | S f =>
      let acc' := String (ascii_of_N (48 + N.modulo n 10)%N) acc in
      let q := N.div n 10 in
      if N.eqb q 0 then acc' else digits_go f q acc'
  end.

Definition string_of_N (n : N) : string := digits_go (S (N.size_nat n)) n EmptyString.

(** [str(z)] for a Python int. *)
Definition string_of_Z (z : Z) : string :=
  if Z.ltb z 0 then "-" ++ string_of_N (Z.to_N (Z.opp z)) else string_of_N (Z.to_N z).

Fixpoint zeros (n : nat) : string :=
  match n with O => EmptyString | S k => String "0"%char (zeros k) end.

(** ** Python floats: [float(x)] and [format(x, ".2f")] *)

(** [round(m / d)] with ties to even, for [d > 0]. *)
Definition div_half_even (m d : Z) : Z :=
  let q := Z.div m d in
  let r := (m - q * d)%Z in
  match Z.compare (2 * r) d with
  | Lt => q
  | Gt => (q + 1)%Z
  | Eq => if Z.even q then q else (q + 1)%Z
  end.

(** [f"{x:.2f}"]. *)
Definition format_2f (x : pyfloat) : string :=
  match x with
  | PInf neg => if neg then "-inf" else "inf"
  | PNaN => "nan"
  | PFin m e =>
      let k := (e + 2)%Z in
      let n := if Z.leb 0 k then (m * 10 ^ k)%Z else div_half_even m (10 ^ (- k)) in
      let a := Z.to_N (Z.abs n) in
      let frac := N.modulo a 100 in
      (if Z.ltb m 0 then "-" else "")
        ++ string_of_N (N.div a 100) ++ "."
        ++ (if N.ltb frac 10%N then "0" else "") ++ string_of_N frac
  end.

Definition digit_val (c : ascii) : option Z :=
  let n := nat_of_ascii c in
  if ((48 <=? n) && (n <=? 57))%nat then Some (Z.of_nat (n - 48)) else None.

Fixpoint take_digits (s : string) : list Z * string :=
  match s with
  | EmptyString => ([], EmptyString)
  | String c s' =>
      match digit_val c with
      | Some d => let (ds, r) := take_digits s' in (d :: ds, r)
      | None => ([], s)
      end
  end.

Definition digits_value (ds : list Z) : Z :=
  fold_left (fun acc d => (acc * 10 + d)%Z) ds 0%Z.

Definition lower_char (c : ascii) : ascii :=
  let n := nat_of_ascii c in
  if ((65 <=? n) && (n <=? 90))%nat then ascii_of_nat (n + 32) else c.

Fixpoint py_lower (s : string) : string :=
  match s with
  | EmptyString => EmptyString
  | String c s' => String (lower_char c) (py_lower s')
  end.

(** The optional exponent part [(e|E)[+|-]digits] at the end of a literal. *)
Definition parse_exponent (s : string) : option Z :=
  match s with
  | EmptyString => Some 0%Z
  | String c r =>
      if Ascii.eqb (lower_char c) "e"%char then
        let '(neg, r') :=
          match r with
          | String "-"%char r' => (true, r')
          | String "+"%char r' => (false, r')
          | _ => (false, r)
          end in
        let (ds, rest) := take_digits r' in
        match ds, rest with
        | _ :: _, EmptyString =>
            Some (if neg then Z.opp (digits_value ds) else digits_value ds)
        | _, _ => None
        end
      else None
  end.

(** An unsigned float literal: [inf], [infinity], [nan] (any case) or
    [digits[.digits][exponent]] / [.digits[exponent]]. *)
Definition parse_unsigned (neg : bool) (s : string) : option pyfloat :=
  let l := py_lower s in
  if String.eqb l "inf" || String.eqb l "infinity" then Some (PInf neg)
  else if String.eqb l "nan" then Some PNaN
  else
    let (ds1, r1) := take_digits s in
    let (ds2, r2) :=
      match r1 with
      | String "."%char r => take_digits r
      | _ => ([], r1)
      end in
    match app ds1 ds2 with
    | [] => None
    | ds =>
        match parse_exponent r2 with
        | None => None
        | Some x =>
            let m := digits_value ds in
            Some (PFin (if neg then Z.opp m else m)
                       (x - Z.of_nat (List.length ds2))%Z)
        end
    end.

(** [float(s)] for a string: surrounding whitespace is ignored, then an
    optional sign.  (Digit-group underscores and non-ASCII digits, which
    Python also accepts, are not modelled.) *)
Definition float_of_string (s : string) : option pyfloat :=
  let t := py_strip s in
  match t with
  | String "+"%char r => parse_unsigned false r
  | String "-"%char r => parse_unsigned true r
  | _ => parse_unsigned false t
  end.

(** [float(v)] for a decoded JSON value. *)
Definition py_float (v : json) : exn + pyfloat :=
  match v with
  | JInt z => inr (PFin z 0)
  | JFloat f => inr f
  | JBool b => inr (PFin (if b then 1 else 0) 0)
  | JStr s => match float_of_string s with Some f => inr f | None => inl ValueError end
  | JNull | JList _ | JDict _ => inl TypeError
  end.

(** [repr(x)] of a float: shortest digits, positional notation for decimal
    exponents in [-4, 16), scientific notation otherwise. *)
Fixpoint strip_zeros (fuel : nat) (m e : Z) : Z * Z :=
  match fuel with
  | O => (m, e)
  | S f =>
      if Z.eqb (Z.modulo m 10) 0 then strip_zeros f (Z.quot m 10) (e + 1)%Z
      else (m, e)
  end.

Definition float_repr (x : pyfloat) : string :=
  match x with
  | PInf neg => if neg then "-inf" else "inf"
  | PNaN => "nan"
  | PFin m0 e0 =>
      if Z.eqb m0 0 then "0.0" else
      let '(m, e) := strip_zeros (N.size_nat (Z.to_N (Z.abs m0))) m0 e0 in
      let ds := string_of_N (Z.to_N (Z.abs m)) in
      let k := Z.of_nat (String.length ds) in
      let dp := (k + e)%Z in
      let x := (dp - 1)%Z in
      (if Z.ltb m 0 then "-" else "")
      ++ (if Z.leb (-4) x && Z.ltb x 16 then
            if Z.leb 0 e then ds ++ zeros (Z.to_nat e) ++ ".0"
            else if Z.ltb 0 dp then
              substring 0 (Z.to_nat dp) ds ++ "."
                ++ substring (Z.to_nat dp) (Z.to_nat (k - dp)) ds
            else "0." ++ zeros (Z.to_nat (Z.opp dp)) ++ ds
          else
            substring 0 1 ds
            ++ (if Z.ltb 1 k then "." ++ substring 1 (Z.to_nat (k - 1)) ds else "")
            ++ "e" ++ (if Z.ltb x 0 then "-" else "+")
            ++ (if Z.ltb (Z.abs x) 10 then "0" else "")
            ++ string_of_N (Z.to_N (Z.abs x)))
  end.

(** [repr(v)] of a decoded JSON value (string escapes are not modelled). *)
Fixpoint py_repr (v : json) : string :=
  match v with
  | JNull => "None"
  | JBool b => if b then "True" else "False"
  | JInt z => string_of_Z z
  | JFloat f => float_repr f
  | JStr s => "'" ++ s ++ "'"
  | JList l => "[" ++ py_join ", " (map py_repr l) ++ "]"
  | JDict kvs =>
      "{" ++ py_join ", " (map (fun kv => "'" ++ fst kv ++ "': " ++ py_repr (snd kv)) kvs)
      ++ "}"
  end.

(** [str(v)], as used by an f-string field without format spec. *)
Definition py_str (v : json) : string :=
  match v with JStr s => s | _ => py_repr v end.

Definition nl : string := String (ascii_of_nat 10) EmptyString.

(** ** The program's environment *)

(** The variables read once at import time with [os.getenv]. *)
Record config := {
  GROWW_API_KEY : option string;
  GROWW_API_SECRET : option string;
  PERPLEXITY_API_KEY : option string;
  TWILIO_SID : option string;
  TWILIO_AUTH : option string;
  TWILIO_FROM : option string;
  WHATSAPP_TO : option string
}.

(** An HTTP response: its status code and its body decoded by [r.json()]
    ([None] when the body is not JSON). *)
Record response := {
  status_code : Z;
  body : option json
}.

(** The external collaborators, as oracles. *)
Record world := {
  (** [pyotp.TOTP(secret).now()] *)
  totp_now : option string -> exn + string;
  (** [GrowwAPI.get_access_token(api_key, totp)] *)
  groww_get_access_token : option string -> string -> exn + json;
  (** [requests.get(url, headers=..., timeout=12)] *)
  http_get : string -> list (string * string) -> exn + response;
  (** [requests.post(url, headers=..., json=payload, timeout=18)] *)
  http_post : string -> list (string * string) -> json -> exn + response;
  (** [Client(sid, auth).messages.create(from_=..., to=..., body=...).sid] *)
  twilio_create : string -> string -> string -> string -> string -> exn + string
}.

(** [r.raise_for_status()]: raises for 4xx and 5xx statuses. *)
Definition raise_for_status (r : response) : M unit :=
  if Z.leb 400 (status_code r) && Z.ltb (status_code r) 600
  then throw (HTTPError (status_code r)) else ret tt.

(** [r.json()]. *)
Definition resp_json (r : response) : M json :=
  match body r with Some j => ret j | None => throw JSONDecodeError end.

(** [o[k]] on a dict: [KeyError] for a missing key. *)
Definition index (o : json) (k : string) : M json :=
  match o with
  | JDict kvs => match lookup k kvs with Some v => ret v | None => throw KeyError end
  | _ => throw TypeError
  end.

(** [text.split()] on a value that must be a [str]. *)
Definition split_json (v : json) : M (list string) :=
  match v with JStr s => ret (py_split s) | _ => throw AttributeError end.

(** [symbol.upper()] on a value that must be a [str]. *)
Definition upper_json (v : json) : M string :=
  match v with JStr s => ret (py_upper s) | _ => throw AttributeError end.

Definition opt_str (v : option string) : string :=
  match v with Some s => s | None => "None" end.

(** ** Groww helpers (lines 44-62) *)

Definition get_groww_access_token (w : world) (api_key api_secret : option string)
  : M json :=
  totp <- lift (totp_now w api_secret) ;;
  log Info "Generated TOTP." ;;;
  emit (EHttp GrowwToken) ;;;
  access_token <- lift (groww_get_access_token w api_key totp) ;;
  if negb (truthy access_token)
  then throw (RuntimeError "Failed to retrieve access_token from Groww SDK.")
  else ret access_token.

Definition fetch_holdings (w : world) (access_token : json) : M json :=
  let url := "https://api.groww.in/v1/holdings/user" in
  let headers := [("Authorization", "Bearer " ++ py_str access_token);
                  ("X-API-VERSION", "1.0");
                  ("Accept", "application/json")] in
  emit (EHttp GrowwHoldings) ;;;
  r <- lift (http_get w url headers) ;;
  raise_for_status r ;;;
  resp_json r.

(** ** Perplexity helper (lines 66-109) *)

Definition perplexity_prompt (ticker : string) : string :=
  "Write a concise, investor-friendly ~30-word summary about recent news, developments or industry trends related to "
  ++ ticker ++ ". "
  ++ "Keep it factual, neutral, and end with a period. Include citations if available.".

(** Lines 96-105: the text of the first choice, [""] when there is none. *)
Definition extract_text (data : json) : M json :=
  choices <- get_d data "choices" (JList []) ;;
  if truthy choices && is_list choices then
    match choices with
    | JList (choice :: _) =>
        message <- get_d choice "message" (JDict []) ;;
        content <- get message "content" ;;
        if truthy content then
          m <- index choice "message" ;; index m "content"
        else
          t <- get choice "text" ;;
          if truthy t then index choice "text" else ret (JStr "")
    | _ => ret (JStr "")
    end
  else ret (JStr "").

(** Lines 106-108. *)
Definition finish_text (words : list string) : string :=
  let text := py_strip (py_join " " words) in
  if ends_with_dot text then text else text ++ ".".

Definition ask_perplexity_for_insight (cfg : config) (w : world) (ticker : string)
  : M string :=
  if negb (env_truthy (PERPLEXITY_API_KEY cfg)) then ret "" else
  let url := "https://api.perplexity.ai/chat/completions" in
  let headers := [("Authorization", "Bearer " ++ opt_str (PERPLEXITY_API_KEY cfg));
                  ("Content-Type", "application/json");
                  ("Accept", "application/json")] in
  let payload :=
    JDict [("model", JStr "sonar-pro");
           ("messages", JList [JDict [("role", JStr "user");
                                      ("content", JStr (perplexity_prompt ticker))]]);
           ("max_tokens", JInt 160);
           ("temperature", JFloat (PFin 2 (-1)))] in
  res <- try_ (emit (EHttp PerplexityChat) ;;;
               resp <- lift (http_post w url headers payload) ;;
               raise_for_status resp ;;;
               ret resp) ;;
  match res with
  | inl _ =>
      log Warning "Perplexity API call failed for %s: %s" ;;;
      ret ""
  | inr resp =>
      data <- resp_json resp ;;
      text <- extract_text data ;;
      words <- split_json text ;;
      ret (finish_text words)
  end.

(** ** Message composition (lines 113-148) *)

Definition header_line : string := "📊 Daily Portfolio Update" ++ nl.

Definition placeholder_line : string := "  (No update available)".

(** Lines 130-138 for one holding [h]: the symbol as resolved and the
    formatted line. *)
Definition holding_line (h : json) : M (string * string) :=
  symbol <- por (get h "trading_symbol")
              (por (get h "symbol") (por (get h "ticker") (ret (JStr "Unknown")))) ;;
  qty <- por (get h "quantity") (por (get h "qty") (ret (JInt 0))) ;;
  avg_price <- por (get h "average_price")
                 (por (get h "avg_price") (ret (JFloat (PFin 0 0)))) ;;
  let avg := match py_float avg_price with inr f => f | inl _ => PFin 0 0 end in
  up <- upper_json symbol ;;
  ret (py_str symbol,
       "• " ++ up ++ " | Qty: " ++ py_str qty ++ " | Avg: ₹" ++ format_2f avg).

(** Lines 140-144. *)
Definition insight_line (insight : string) : string :=
  if negb (String.eqb insight "") then "  " ++ insight else placeholder_line.

(** The loop of lines 129-146: the lines appended for the holdings [hs]. *)
Fixpoint compose_lines (cfg : config) (w : world) (hs : list json) : M (list string) :=
  match hs with
  | [] => ret []
  | h :: rest =>
      p <- holding_line h ;;
      insight <- ask_perplexity_for_insight cfg w (fst p) ;;
      more <- compose_lines cfg w rest ;;
      ret (snd p :: insight_line insight :: "" :: more)
  end.

(** Lines 117-121: the first truthy of the three nested lookups. *)
Definition resolve_nested (holdings_json : json) : M json :=
  por (p <- get_d holdings_json "payload" (JDict []) ;; get p "holdings")
    (por (d <- get_d holdings_json "data" (JDict []) ;; get d "holdings")
       (get holdings_json "holdings")).

(** Lines 129-148 once a list [hs] has been found. *)
Definition render_holdings (cfg : config) (w : world) (hs : list json) : M string :=
  lines <- compose_lines cfg w hs ;;
  ret (py_strip (py_join nl (header_line :: lines))).

Definition compose_portfolio_message (cfg : config) (w : world) (holdings_json : json)
  : M string :=
  holdings_list <- (if is_dict holdings_json then resolve_nested holdings_json
                    else ret JNull) ;;
  holdings_list <- (if negb (is_list holdings_list) then
                      p <- get holdings_json "payload" ;;
                      if is_list p then get holdings_json "payload" else ret holdings_list
                    else ret holdings_list) ;;
  match holdings_list with
  | JList hs => render_holdings cfg w hs
  | _ =>
      log Warning "Unexpected holdings JSON shape; cannot find holdings list." ;;;
      ret "No holdings found."
  end.

(** ** Delivery (lines 152-165) *)

Definition twilio_configured (cfg : config) : bool :=
  env_truthy (TWILIO_SID cfg) && env_truthy (TWILIO_AUTH cfg)
  && env_truthy (TWILIO_FROM cfg) && env_truthy (WHATSAPP_TO cfg).

Definition send_whatsapp (cfg : config) (w : world) (body : string) : M (option string) :=
  if twilio_configured cfg then
    res <- try_ (emit (EHttp TwilioSend) ;;;
                 sid <- lift (twilio_create w (opt_str (TWILIO_SID cfg))
                                (opt_str (TWILIO_AUTH cfg)) (opt_str (TWILIO_FROM cfg))
                                (opt_str (WHATSAPP_TO cfg)) body) ;;
                 log Info "WhatsApp message sent. SID: %s" ;;;
                 ret sid) ;;
    match res with
    | inl _ => log Error "Twilio send failed: %s" ;;; print body ;;; ret None
    | inr sid => ret (Some sid)
    end
  else
    print body ;;; ret None.

(** ** The scheduled job (lines 169-178) *)

Definition run (cfg : config) (w : world) : M unit :=
  log Info "Starting scheduled run." ;;;
  res <- try_ (token <- get_groww_access_token w (GROWW_API_KEY cfg) (GROWW_API_SECRET cfg) ;;
               holdings_json <- fetch_holdings w token ;;
               message <- compose_portfolio_message cfg w holdings_json ;;
               log Info "Composed message: %s" ;;;
               _ <- send_whatsapp cfg w message ;;
               ret tt) ;;
  match res with
  | inl _ => log Exception "Run failed: %s"
  | inr _ => ret tt
  end.

(** ** Views used to state properties *)

(** [d.get(k)] on a dict, as a pure function. *)
Definition getv (kvs : list (string * json)) (k : string) : json :=
  match lookup k kvs with Some v => v | None => JNull end.

(** [d.get(k, {})] is a dict: the key is absent or holds a dict. *)
Definition absent_or_dict (kvs : list (string * json)) (k : string) : Prop :=
  match lookup k kvs with None => True | Some (JDict _) => True | Some _ => False end.

(** The value of [d[k]["holdings"]] when [d[k]] is a dict, else [None]. *)
Definition nested (kvs : list (string * json)) (k : string) : json :=
  match lookup k kvs with Some (JDict d) => getv d "holdings" | _ => JNull end.

(** Python's [a or b] on values. *)
Definition or_else (a b : json) : json := if truthy a then a else b.

(** The fields of a holding dict as resolved by lines 130-136. *)
Definition symbol_of (kvs : list (string * json)) : json :=
  or_else (getv kvs "trading_symbol")
    (or_else (getv kvs "symbol") (or_else (getv kvs "ticker") (JStr "Unknown"))).

Definition qty_of (kvs : list (string * json)) : json :=
  or_else (getv kvs "quantity") (or_else (getv kvs "qty") (JInt 0)).

Definition avg_of (kvs : list (string * json)) : pyfloat :=
  match py_float (or_else (getv kvs "average_price")
                    (or_else (getv kvs "avg_price") (JFloat (PFin 0 0)))) with
  | inr f => f
  | inl _ => PFin 0 0
  end.

(** The [content] of the [message] of a choice, as read on line 101. *)
Definition message_content (c : list (string * json)) : json :=
  match lookup "message" c with Some (JDict m) => getv m "content" | _ => JNull end.

(** A holding for which lines 130-138 succeed: a dict whose resolved
    symbol is a string. *)
Definition holding_ok (h : json) : bool :=
  match h with
  | JDict kvs => match symbol_of kvs with JStr _ => true | _ => false end
  | _ => false
  end.

(** The average price of a holding before coercion (line 132). *)
Definition avg_raw (kvs : list (string * json)) : json :=
  or_else (getv kvs "average_price") (or_else (getv kvs "avg_price") (JFloat (PFin 0 0))).

(** The value lines 119-121 resolve for a dict response, when each of
    [payload] and [data] that is reached is absent or a dict. *)
Definition first_truthy_holdings (kvs : list (string * json)) : json :=
  or_else (nested kvs "payload") (or_else (nested kvs "data") (getv kvs "holdings")).

(** The prompt sent in an insight request payload (line 84). *)
Definition prompt_of (p : json) : string :=
  match p with
  | JDict kvs =>
      match lookup "messages" kvs with
      | Some (JList (JDict m :: _)) =>
          match lookup "content" m with Some (JStr s) => s | _ => "" end
      | _ => ""
      end
  | _ => ""
  end.

(** Every service answers, the insight endpoint according to the prompt. *)
Definition prompt_world (answer : string -> exn + response) : world := {|
  totp_now := fun _ => inr "123456";
  groww_get_access_token := fun _ _ => inr (JStr "token");
  http_get := fun _ _ => inl RequestException;
  http_post := fun _ _ p => answer (prompt_of p);
  twilio_create := fun _ _ _ _ _ => inl RequestException |}.

Definition infy_holding : json :=
  JDict [("trading_symbol", JStr "infy"); ("qty", JInt 3); ("avg_price", JStr "N/A")].

(** ** Fixtures *)

(** Nothing configured in the environment. *)
Definition unconfigured : config := {|
  GROWW_API_KEY := None; GROWW_API_SECRET := None; PERPLEXITY_API_KEY := None;
  TWILIO_SID := None; TWILIO_AUTH := None; TWILIO_FROM := None; WHATSAPP_TO := None |}.

(** Every service unreachable. *)
Definition offline : world := {|
  totp_now := fun _ => inl RequestException;
  groww_get_access_token := fun _ _ => inl RequestException;
  http_get := fun _ _ => inl RequestException;
  http_post := fun _ _ _ => inl RequestException;
  twilio_create := fun _ _ _ _ _ => inl RequestException |}.

Definition tcs_holding : json :=
  JDict [("symbol", JStr "TCS"); ("quantity", JInt 10);
         ("average_price", JFloat (PFin 32505 (-1)))].

Definition tcs_expected : string :=
  "📊 Daily Portfolio Update" ++ nl ++ nl ++ "• TCS | Qty: 10 | Avg: ₹3250.50" ++ nl
  ++ "  (No update available)".

(** The holdings response of the end-to-end runs. *)
Definition tcs_response : json :=
  JDict [("payload", JDict [("holdings", JList [tcs_holding])])].

(** The three dict nestings of a holdings list [hs]. *)
Definition nestings (hs : list json) : list json :=
  [JDict [("payload", JDict [("holdings", JList hs)])];
   JDict [("data", JDict [("holdings", JList hs)])];
   JDict [("holdings", JList hs)]].

(** Every service answers; the holdings endpoint and the insight endpoint
    return status 200 with the given decoded bodies, the token exchange
    returns [tok], and the Twilio send fails. *)
Definition world_with (tok : json) (holdings insight : option json) : world := {|
  totp_now := fun _ => inr "123456";
  groww_get_access_token := fun _ _ => inr tok;
  http_get := fun _ _ => inr {| status_code := 200; body := holdings |};
  http_post := fun _ _ _ => inr {| status_code := 200; body := insight |};
  twilio_create := fun _ _ _ _ _ => inl RequestException |}.

(** Only the insight key is configured. *)
Definition perplexity_key : config := {|
  GROWW_API_KEY := None; GROWW_API_SECRET := None; PERPLEXITY_API_KEY := Some "pplx-key";
  TWILIO_SID := None; TWILIO_AUTH := None; TWILIO_FROM := None; WHATSAPP_TO := None |}.


(** The Groww and insight keys configured, Twilio not. *)
Definition groww_and_perplexity : config := {|
  GROWW_API_KEY := Some "groww-key"; GROWW_API_SECRET := Some "JBSWY3DPEHPK3PXP";
  PERPLEXITY_API_KEY := Some "pplx-key";
  TWILIO_SID := None; TWILIO_AUTH := None; TWILIO_FROM := None; WHATSAPP_TO := None |}.

(** All four Twilio credentials configured. *)
Definition twilio_full : config := {|
  GROWW_API_KEY := None; GROWW_API_SECRET := None; PERPLEXITY_API_KEY := None;
  TWILIO_SID := Some "AC123"; TWILIO_AUTH := Some "auth";
  TWILIO_FROM := Some "whatsapp:+14155238886"; WHATSAPP_TO := Some "whatsapp:+919999999999" |}.




(** ** General lemmas *)

Lemma sapp_assoc (a b c : string) : (a ++ b) ++ c = a ++ (b ++ c).
Proof. induction a as [|x a IH]; simpl; [reflexivity | now rewrite IH]. Qed.

Lemma sapp_nil_r (a : string) : a ++ "" = a.
Proof. induction a as [|x a IH]; simpl; [reflexivity | now rewrite IH]. Qed.

Lemma bind_ret {A B} (a : A) (f : A -> M B) : bind (ret a) f = f a.
Proof. unfold bind, ret. destruct (f a). reflexivity. Qed.

Lemma env_truthy_false (v : option string) :
  env_truthy v = false -> v = None \/ v = Some "".
Proof.
  destruct v as [s|]; simpl; [|auto].
  destruct s; simpl; [auto | discriminate].
Qed.

(** With no insight key, the insight fetch returns [""] and emits nothing. *)
Lemma ask_unconfigured (cfg : config) (w : world) (t : string) :
  env_truthy (PERPLEXITY_API_KEY cfg) = false ->
  ask_perplexity_for_insight cfg w t = ([], inr "").
Proof. intros H. unfold ask_perplexity_for_insight. now rewrite H. Qed.

(** ** C3 *)

(** C3: with the insight key unconfigured, the holdings response holding
    [{symbol: "TCS", quantity: 10, average_price: 3250.5}] (under any of the
    three dict nestings) composes exactly to the header line, a blank line,
    the holding line and the placeholder line, with no trailing newline. *)
Theorem C3_tcs_end_to_end (cfg : config) (w : world) (hj : json) :
  env_truthy (PERPLEXITY_API_KEY cfg) = false ->
  In hj (nestings [tcs_holding]) ->
  compose_portfolio_message cfg w hj = ([], inr tcs_expected).
Proof.
  destruct cfg as [k1 k2 key s1 s2 s3 s4]; simpl.
  intros Hk Hin.
  destruct (env_truthy_false key Hk) as [-> | ->];
    destruct Hin as [<- | [<- | [<- | []]]]; vm_compute; reflexivity.
Qed.

Lemma C3_tcs_end_to_end_witness :
  env_truthy (PERPLEXITY_API_KEY unconfigured) = false
  /\ compose_portfolio_message unconfigured offline
       (JDict [("payload", JDict [("holdings", JList [tcs_holding])])])
     = ([], inr tcs_expected).
Proof.
  split; [reflexivity|].
  apply C3_tcs_end_to_end; [reflexivity | simpl; auto].
Defined.

(** ** C1 *)

(** C1, as stated, fails: an empty list is skipped under [payload.holdings]
    but kept under [holdings], so the same (empty) list gives different
    messages depending on its nesting; and a response whose [payload] is
    itself a list makes line 119 call [.get] on a list. *)
Lemma C1_nesting_changes_result :
  compose_portfolio_message unconfigured offline
    (JDict [("payload", JDict [("holdings", JList [])])])
  = ([ELog Warning "Unexpected holdings JSON shape; cannot find holdings list."],
     inr "No holdings found.")
  /\ compose_portfolio_message unconfigured offline (JDict [("holdings", JList [])])
     = ([], inr "📊 Daily Portfolio Update")
  /\ compose_portfolio_message unconfigured offline
       (JDict [("payload", JList [tcs_holding])])
     = ([], inl AttributeError).
Proof. vm_compute. auto. Qed.

Ltac eqb_lits :=
  repeat match goal with
  | |- context [String.eqb ?a ?b] =>
      let v := eval vm_compute in (String.eqb a b) in
      change (String.eqb a b) with v
  end; cbn iota beta.

Ltac solve_path :=
  repeat match goal with
  | H : False |- _ => destruct H
  | H : _ /\ _ |- _ => destruct H
  | H : JNull = JList _ |- _ => discriminate H
  | H : true = false |- _ => discriminate H
  end.

Lemma por_ret (v : json) (m : M json) :
  por (ret v) m = if truthy v then ret v else m.
Proof. unfold por. rewrite bind_ret. reflexivity. Qed.

Lemma get_dict (kvs : list (string * json)) (k : string) :
  get (JDict kvs) k = ret (getv kvs k).
Proof. reflexivity. Qed.

(** [d.get(k, {}).get("holdings")] when [d[k]] is absent or a dict. *)
Lemma nested_get (kvs : list (string * json)) (k : string) :
  absent_or_dict kvs k ->
  (p <- get_d (JDict kvs) k (JDict []) ;; get p "holdings") = ret (nested kvs k).
Proof.
  unfold absent_or_dict, nested, get_d. destruct (lookup k kvs) as [v|].
  - destruct v; intros H; try destruct H. rewrite bind_ret. reflexivity.
  - intros _. reflexivity.
Qed.

Lemma nested_list_absent_or_dict (kvs : list (string * json)) (k : string) hs :
  nested kvs k = JList hs -> absent_or_dict kvs k.
Proof.
  unfold absent_or_dict, nested. destruct (lookup k kvs) as [v|]; [|auto].
  destruct v; simpl; auto; discriminate.
Qed.

Lemma absent_or_dict_not_list (kvs : list (string * json)) (k : string) :
  absent_or_dict kvs k -> is_list (getv kvs k) = false.
Proof.
  unfold absent_or_dict, getv. destruct (lookup k kvs) as [v|]; [|reflexivity].
  destruct v; intros H; try destruct H; reflexivity.
Qed.

(** Lines 119-121 on a dict response: the first truthy of the three
    lookups, the last one taken as it is. *)
Lemma resolve_first_truthy (kvs : list (string * json)) :
  absent_or_dict kvs "payload" ->
  (truthy (nested kvs "payload") = false -> absent_or_dict kvs "data") ->
  resolve_nested (JDict kvs) = ret (first_truthy_holdings kvs).
Proof.
  intros Hp Hd. unfold resolve_nested, first_truthy_holdings, or_else.
  rewrite (nested_get kvs "payload" Hp), por_ret.
  destruct (truthy (nested kvs "payload")) eqn:E; [reflexivity|].
  rewrite (nested_get kvs "data" (Hd eq_refl)), por_ret.
  destruct (truthy (nested kvs "data")); [reflexivity|].
  apply get_dict.
Qed.

(** Lines 122-148 once lines 119-121 resolved [v], when [payload] is not a
    list. *)
Lemma compose_resolved (cfg : config) (w : world) (kvs : list (string * json)) (v : json) :
  absent_or_dict kvs "payload" ->
  resolve_nested (JDict kvs) = ret v ->
  compose_portfolio_message cfg w (JDict kvs)
  = match v with
    | JList hs => render_holdings cfg w hs
    | _ => ([ELog Warning "Unexpected holdings JSON shape; cannot find holdings list."],
            inr "No holdings found.")
    end.
Proof.
  intros Hp Hr. unfold compose_portfolio_message. cbn [is_dict]. rewrite Hr, bind_ret.
  pose proof (absent_or_dict_not_list kvs "payload" Hp) as Hl.
  destruct v; cbn [is_list negb];
    try (rewrite bind_ret; reflexivity);
    rewrite get_dict, bind_ret, Hl, bind_ret; reflexivity.
Qed.

Lemma compose_first_truthy (cfg : config) (w : world) (kvs : list (string * json)) :
  absent_or_dict kvs "payload" ->
  (truthy (nested kvs "payload") = false -> absent_or_dict kvs "data") ->
  compose_portfolio_message cfg w (JDict kvs)
  = match first_truthy_holdings kvs with
    | JList hs => render_holdings cfg w hs
    | _ => ([ELog Warning "Unexpected holdings JSON shape; cannot find holdings list."],
            inr "No holdings found.")
    end.
Proof.
  intros Hp Hd. apply compose_resolved; [exact Hp|]. now apply resolve_first_truthy.
Qed.

(** C1 (amended): on a dict response, the holdings value is the first
    truthy value among [payload.holdings], [data.holdings] and [holdings],
    tried in that order, the last one taken as it is (so an empty list
    there is kept), provided each of [payload] and [data] that is reached
    is absent or a dict.  A list is rendered (the empty list to the header
    alone); any other value, even when a later path holds a list, gives
    ["No holdings found."].  A non-empty list under any of the three keys
    yields the message rendered from that list alone. *)
Theorem C1_first_truthy_path (cfg : config) (w : world) (kvs : list (string * json)) :
  absent_or_dict kvs "payload" ->
  (truthy (nested kvs "payload") = false -> absent_or_dict kvs "data") ->
  compose_portfolio_message cfg w (JDict kvs)
  = match first_truthy_holdings kvs with
    | JList hs => render_holdings cfg w hs
    | _ => ([ELog Warning "Unexpected holdings JSON shape; cannot find holdings list."],
            inr "No holdings found.")
    end
  /\ render_holdings cfg w [] = ([], inr "📊 Daily Portfolio Update")
  /\ (forall hs, hs <> [] ->
        Forall (fun hj => compose_portfolio_message cfg w hj = render_holdings cfg w hs)
          (nestings hs)).
Proof.
  intros Hp Hd. split; [now apply compose_first_truthy|].
  split; [vm_compute; reflexivity|].
  intros hs Hne. destruct hs as [|h hs]; [congruence|].
  unfold nestings.
  repeat (apply Forall_cons;
    [ rewrite compose_first_truthy; [reflexivity | exact I | intros _; exact I] |]).
  apply Forall_nil.
Qed.

Lemma C1_first_truthy_path_witness :
  absent_or_dict [("payload", JDict [("holdings", JStr "abc")]);
                  ("data", JDict [("holdings", JList [tcs_holding])])] "payload"
  /\ compose_portfolio_message unconfigured offline
       (JDict [("payload", JDict [("holdings", JStr "abc")]);
               ("data", JDict [("holdings", JList [tcs_holding])])])
     = ([ELog Warning "Unexpected holdings JSON shape; cannot find holdings list."],
        inr "No holdings found.").
Proof.
  split; [exact I|].
  apply (proj1 (C1_first_truthy_path unconfigured offline
                  [("payload", JDict [("holdings", JStr "abc")]);
                   ("data", JDict [("holdings", JList [tcs_holding])])] I
                  (fun _ => I))).
Defined.

(** ** C2 *)

(** C2 fails on the code: a top-level value that is not a dict passes the
    guard of line 118 but reaches [holdings_json.get("payload")] on line 123,
    which raises [AttributeError]; so does a dict whose [payload] is [null]
    (line 119).  Neither yields ["No holdings found."]. *)
Theorem C2_non_dict_raises (cfg : config) (w : world) :
  (forall v, is_dict v = false ->
     compose_portfolio_message cfg w v = ([], inl AttributeError))
  /\ compose_portfolio_message cfg w (JDict [("payload", JNull)]) = ([], inl AttributeError).
Proof.
  split.
  - intros v Hv. destruct v; try discriminate Hv; reflexivity.
  - reflexivity.
Qed.

Lemma C2_non_dict_raises_witness :
  is_dict JNull = false
  /\ compose_portfolio_message unconfigured offline JNull = ([], inl AttributeError).
Proof.
  split; [reflexivity|].
  apply (proj1 (C2_non_dict_raises unconfigured offline)). reflexivity.
Defined.

(** ** C4 *)

Lemma if_ret {A} (c : bool) (a b : A) :
  (if c then ret a else ret b) = ret (if c then a else b).
Proof. destruct c; reflexivity. Qed.

(** [holding_line] on a dict is the pure field resolution followed by
    [symbol.upper()], the only step that can raise. *)
Lemma holding_line_dict (kvs : list (string * json)) :
  holding_line (JDict kvs)
  = (up <- upper_json (symbol_of kvs) ;;
     ret (py_str (symbol_of kvs),
          "• " ++ up ++ " | Qty: " ++ py_str (qty_of kvs) ++ " | Avg: ₹"
          ++ format_2f (avg_of kvs))).
Proof.
  unfold holding_line, symbol_of, qty_of, avg_of, or_else.
  rewrite !get_dict, !por_ret, !if_ret, !bind_ret.
  reflexivity.
Qed.

Lemma holding_line_avg (kvs : list (string * json)) (sym line : string) :
  snd (holding_line (JDict kvs)) = inr (sym, line) ->
  exists pre, line = pre ++ "Avg: ₹" ++ format_2f (avg_of kvs).
Proof.
  intros H. rewrite holding_line_dict in H.
  destruct (symbol_of kvs) as [| | | |s| |]; simpl in H; try discriminate H.
  injection H as _ <-.
  exists ("• " ++ py_upper s ++ " | Qty: " ++ py_str (qty_of kvs) ++ " | ").
  rewrite !sapp_assoc. reflexivity.
Qed.

(** C4: the resolved average price ([average_price], else [avg_price],
    else [0.0]) is coerced with [float()] and printed with two decimals;
    when the coercion raises, [0.0] is printed.  So a resolved price
    ["123.4"] gives a line ending in [Avg: ₹123.40], and an unparsable
    one, such as ["N/A"], a line ending in [Avg: ₹0.00]. *)
Theorem C4_avg_price_formatting (kvs : list (string * json)) (sym line : string) :
  snd (holding_line (JDict kvs)) = inr (sym, line) ->
  (forall f, py_float (avg_raw kvs) = inr f ->
     exists pre, line = pre ++ "Avg: ₹" ++ format_2f f)
  /\ (forall e, py_float (avg_raw kvs) = inl e -> exists pre, line = pre ++ "Avg: ₹0.00")
  /\ (avg_raw kvs = JStr "123.4" -> exists pre, line = pre ++ "Avg: ₹123.40")
  /\ (avg_raw kvs = JStr "N/A" -> exists pre, line = pre ++ "Avg: ₹0.00").
Proof.
  intros H. destruct (holding_line_avg kvs sym line H) as [pre Hl].
  assert (Ha : avg_of kvs = match py_float (avg_raw kvs) with
                            | inr f => f | inl _ => PFin 0 0 end) by reflexivity.
  split; [|split; [|split]].
  - intros f Hf. exists pre. rewrite Hl, Ha, Hf. reflexivity.
  - intros e He. exists pre. rewrite Hl, Ha, He. reflexivity.
  - intros Hr. exists pre. rewrite Hl, Ha, Hr. reflexivity.
  - intros Hr. exists pre. rewrite Hl, Ha, Hr. reflexivity.
Qed.

Lemma C4_avg_price_formatting_witness :
  snd (holding_line (JDict [("symbol", JStr "TCS"); ("average_price", JStr "");
                            ("avg_price", JStr "N/A")]))
  = inr ("TCS", "• TCS | Qty: 0 | Avg: ₹0.00")
  /\ exists pre, "• TCS | Qty: 0 | Avg: ₹0.00" = pre ++ "Avg: ₹0.00".
Proof.
  split; [reflexivity|].
  apply (proj2 (proj2 (proj2 (C4_avg_price_formatting
                  [("symbol", JStr "TCS"); ("average_price", JStr "");
                   ("avg_price", JStr "N/A")]
                  "TCS" "• TCS | Qty: 0 | Avg: ₹0.00" eq_refl))));
    reflexivity.
Defined.

(** ** C5 *)




Lemma srev_app (a b : string) : srev (a ++ b) = srev b ++ srev a.
Proof.
  induction a as [|c a IH]; simpl.
  - now rewrite sapp_nil_r.
  - now rewrite IH, sapp_assoc.
Qed.

Lemma srev_involutive (s : string) : srev (srev s) = s.
Proof.
  induction s as [|c s IH]; simpl; [reflexivity|].
  rewrite srev_app, IH. reflexivity.
Qed.


Lemma py_join_cons (sep a : string) (l : list string) :
  l <> [] -> py_join sep (a :: l) = a ++ sep ++ py_join sep l.
Proof. destruct l; [contradiction | reflexivity]. Qed.










(** ** C6 *)

(** A failed insight request (an exception of [requests.post] or an error
    status) is logged as a warning and yields [""]. *)
Lemma ask_request_fails (cfg : config) (w : world) (t : string) :
  env_truthy (PERPLEXITY_API_KEY cfg) = true ->
  (exists e, forall u hd p, http_post w u hd p = inl e)
  \/ (exists resp, (forall u hd p, http_post w u hd p = inr resp)
                   /\ (400 <= status_code resp < 600)%Z) ->
  ask_perplexity_for_insight cfg w t
  = ([EHttp PerplexityChat; ELog Warning "Perplexity API call failed for %s: %s"], inr "").
Proof.
  intros Hk Hf. unfold ask_perplexity_for_insight. rewrite Hk. cbn [negb].
  destruct Hf as [[e He] | [resp [Hr [Hlo Hhi]]]].
  - rewrite He. reflexivity.
  - rewrite Hr. unfold raise_for_status.
    apply Z.leb_le in Hlo. apply Z.ltb_lt in Hhi.
    cbn -[Z.leb Z.ltb]. rewrite Hlo, Hhi. reflexivity.
Qed.

(** C6 fails on the code: the [try] of lines 89-94 covers only the request;
    [resp.json()] and the field accesses of lines 96-106 run outside it.
    An insight response with status 200 whose body is not JSON makes the
    insight fetch raise, [compose_portfolio_message] propagates it, and the
    run ends in ["Run failed"] without delivering anything. *)
Theorem C6_insight_decode_error_aborts_run :
  snd (ask_perplexity_for_insight groww_and_perplexity
         (world_with (JStr "token") (Some tcs_response) None) "TCS")
  = inl JSONDecodeError
  /\ run groww_and_perplexity (world_with (JStr "token") (Some tcs_response) None)
     = ([ELog Info "Starting scheduled run."; ELog Info "Generated TOTP.";
         EHttp GrowwToken; EHttp GrowwHoldings; EHttp PerplexityChat;
         ELog Exception "Run failed: %s"], inr tt).
Proof. vm_compute. auto. Qed.

(** ** C7 *)

(** C7: [send_whatsapp] calls Twilio only when all four credentials are
    set; with one missing it only prints; a failed send is logged and the
    message printed; it never raises, and it returns a message SID exactly
    when the send succeeded. *)
Theorem C7_send_whatsapp_fallback (cfg : config) (w : world) (body : string) :
  (In (EHttp TwilioSend) (fst (send_whatsapp cfg w body)) ->
     env_truthy (TWILIO_SID cfg) = true /\ env_truthy (TWILIO_AUTH cfg) = true
     /\ env_truthy (TWILIO_FROM cfg) = true /\ env_truthy (WHATSAPP_TO cfg) = true)
  /\ (env_truthy (TWILIO_SID cfg) = false \/ env_truthy (TWILIO_AUTH cfg) = false
      \/ env_truthy (TWILIO_FROM cfg) = false \/ env_truthy (WHATSAPP_TO cfg) = false ->
      send_whatsapp cfg w body = ([EPrint body], inr None))
  /\ (forall e, twilio_configured cfg = true ->
        twilio_create w (opt_str (TWILIO_SID cfg)) (opt_str (TWILIO_AUTH cfg))
          (opt_str (TWILIO_FROM cfg)) (opt_str (WHATSAPP_TO cfg)) body = inl e ->
        send_whatsapp cfg w body
        = ([EHttp TwilioSend; ELog Error "Twilio send failed: %s"; EPrint body], inr None))
  /\ (forall sid, snd (send_whatsapp cfg w body) = inr (Some sid) <->
        twilio_configured cfg = true
        /\ twilio_create w (opt_str (TWILIO_SID cfg)) (opt_str (TWILIO_AUTH cfg))
             (opt_str (TWILIO_FROM cfg)) (opt_str (WHATSAPP_TO cfg)) body = inr sid)
  /\ (exists res, snd (send_whatsapp cfg w body) = inr res).
Proof.
  unfold send_whatsapp, twilio_configured.
  destruct (env_truthy (TWILIO_SID cfg)) eqn:E1, (env_truthy (TWILIO_AUTH cfg)) eqn:E2,
    (env_truthy (TWILIO_FROM cfg)) eqn:E3, (env_truthy (WHATSAPP_TO cfg)) eqn:E4;
    cbn [andb];
    try (split; [simpl; intros [H|[]]; discriminate H|];
         split; [reflexivity|];
         split; [intros ? H; discriminate H|];
         split; [intros sid; simpl; split; [intros H; discriminate H | intros [H _]; discriminate H]|];
         eexists; reflexivity).
  destruct (twilio_create w _ _ _ _ body) as [e|sid] eqn:Ht.
  - split; [auto|]. split; [intros [H|[H|[H|H]]]; discriminate H|].
    split; [reflexivity|].
    split; [intros sid; simpl; split; [intros H; discriminate H | intros [_ H]; discriminate H]|].
    eexists; reflexivity.
  - split; [auto|]. split; [intros [H|[H|[H|H]]]; discriminate H|].
    split; [intros e _ H; discriminate H|].
    split; [intros sid'; simpl; split;
            [intros H; injection H as <-; auto | intros [_ H]; injection H as <-; reflexivity]|].
    eexists; reflexivity.
Qed.

Lemma C7_send_whatsapp_fallback_witness :
  env_truthy (TWILIO_SID unconfigured) = false
  /\ send_whatsapp unconfigured offline "hello" = ([EPrint "hello"], inr None)
  /\ send_whatsapp twilio_full offline "hello"
     = ([EHttp TwilioSend; ELog Error "Twilio send failed: %s"; EPrint "hello"], inr None).
Proof.
  split; [reflexivity|]. split.
  - apply (proj1 (proj2 (C7_send_whatsapp_fallback unconfigured offline "hello"))).
    left; reflexivity.
  - apply (proj1 (proj2 (proj2 (C7_send_whatsapp_fallback twilio_full offline "hello")))
             RequestException); reflexivity.
Defined.

(** ** C8 *)

(** C8: when the token exchange returns a falsy token, the token helper
    raises after a single exchange, and [run] catches it: the holdings are
    never fetched, the failure is logged and the run returns normally. *)
Theorem C8_no_token_aborts_run (cfg : config) (w : world) (totp : string) (tok : json) :
  totp_now w (GROWW_API_SECRET cfg) = inr totp ->
  groww_get_access_token w (GROWW_API_KEY cfg) totp = inr tok ->
  truthy tok = false ->
  get_groww_access_token w (GROWW_API_KEY cfg) (GROWW_API_SECRET cfg)
  = ([ELog Info "Generated TOTP."; EHttp GrowwToken],
     inl (RuntimeError "Failed to retrieve access_token from Groww SDK."))
  /\ run cfg w
     = ([ELog Info "Starting scheduled run."; ELog Info "Generated TOTP."; EHttp GrowwToken;
         ELog Exception "Run failed: %s"], inr tt).
Proof.
  intros Ht Hg Hf.
  assert (Hget : get_groww_access_token w (GROWW_API_KEY cfg) (GROWW_API_SECRET cfg)
    = ([ELog Info "Generated TOTP."; EHttp GrowwToken],
       inl (RuntimeError "Failed to retrieve access_token from Groww SDK."))).
  { unfold get_groww_access_token. rewrite Ht. cbn -[groww_get_access_token].
    rewrite Hg. cbn -[truthy]. rewrite Hf. reflexivity. }
  split; [exact Hget|].
  unfold run. cbn -[get_groww_access_token]. rewrite Hget. reflexivity.
Qed.

Lemma C8_no_token_aborts_run_witness :
  totp_now (world_with JNull None None) (GROWW_API_SECRET unconfigured) = inr "123456"
  /\ run unconfigured (world_with JNull None None)
     = ([ELog Info "Starting scheduled run."; ELog Info "Generated TOTP."; EHttp GrowwToken;
         ELog Exception "Run failed: %s"], inr tt).
Proof.
  split; [reflexivity|].
  apply (proj2 (C8_no_token_aborts_run unconfigured (world_with JNull None None)
                  "123456" JNull eq_refl eq_refl eq_refl)).
Defined.

(** ** C9 *)

(** C9, as stated, fails for the last key: [a or b or c] evaluates to [c]
    when [a] and [b] are falsy, so an empty list under [holdings] is kept as
    the holdings list (the message is the header alone) instead of being
    treated as absent. *)
Lemma C9_empty_list_under_holdings_kept :
  compose_portfolio_message unconfigured offline (JDict [("holdings", JList [])])
  = ([], inr "📊 Daily Portfolio Update").
Proof. vm_compute. reflexivity. Qed.

Lemma bind_ext {A B} (m : M A) (f g : A -> M B) :
  (forall a, f a = g a) -> bind m f = bind m g.
Proof. intros H. destruct m as [t [e|a]]; simpl; [reflexivity|]. now rewrite H. Qed.

Lemma get_d_cons (k k' : string) (v d : json) (kvs : list (string * json)) :
  get_d (JDict ((k', v) :: kvs)) k d
  = if String.eqb k k' then ret v else get_d (JDict kvs) k d.
Proof. unfold get_d. simpl. destruct (String.eqb k k'); reflexivity. Qed.

Lemma get_cons (k k' : string) (v : json) (kvs : list (string * json)) :
  get (JDict ((k', v) :: kvs)) k = if String.eqb k k' then ret v else get (JDict kvs) k.
Proof. unfold get. simpl. destruct (String.eqb k k'); reflexivity. Qed.

(** Two dict responses with the same nested resolution and the same (or no
    list) [payload] compose to the same message. *)
Lemma compose_same_resolution (cfg : config) (w : world) (kvs1 kvs2 : list (string * json)) :
  resolve_nested (JDict kvs1) = resolve_nested (JDict kvs2) ->
  getv kvs1 "payload" = getv kvs2 "payload"
  \/ (is_list (getv kvs1 "payload") = false /\ is_list (getv kvs2 "payload") = false) ->
  compose_portfolio_message cfg w (JDict kvs1) = compose_portfolio_message cfg w (JDict kvs2).
Proof.
  intros Hr Hp. unfold compose_portfolio_message. cbn [is_dict]. rewrite Hr.
  apply bind_ext. intros hl. f_equal.
  destruct (is_list hl); cbn [negb]; [reflexivity|].
  rewrite !get_dict, !bind_ret.
  destruct Hp as [-> | [-> ->]]; reflexivity.
Qed.

(** C9 (amended): resolution is by truthiness.  A falsy value (such as an
    empty list) under [payload.holdings] or [data.holdings] behaves exactly
    as if the key were absent, so resolution falls through to the next
    path; under [holdings], the last operand of the [or] chain, the value
    itself becomes the result: an empty list there is the holdings list
    and the message is the header alone.  A falsy holding field (quantity
    0, average price 0 or [""], empty symbol, ...) behaves exactly as if it
    were absent: the fallback key or the default is used. *)
Theorem C9_falsy_is_absent (cfg : config) (w : world) (v : json) :
  truthy v = false ->
  (forall pk kvs, lookup "holdings" pk = None ->
     compose_portfolio_message cfg w (JDict (("payload", JDict (("holdings", v) :: pk)) :: kvs))
     = compose_portfolio_message cfg w (JDict (("payload", JDict pk) :: kvs)))
  /\ (forall dk kvs, lookup "holdings" dk = None ->
        compose_portfolio_message cfg w (JDict (("data", JDict (("holdings", v) :: dk)) :: kvs))
        = compose_portfolio_message cfg w (JDict (("data", JDict dk) :: kvs)))
  /\ (forall kvs, absent_or_dict kvs "payload" -> truthy (nested kvs "payload") = false ->
        absent_or_dict kvs "data" -> truthy (nested kvs "data") = false ->
        getv kvs "holdings" = v ->
        compose_portfolio_message cfg w (JDict kvs)
        = match v with
          | JList hs => render_holdings cfg w hs
          | _ => ([ELog Warning "Unexpected holdings JSON shape; cannot find holdings list."],
                  inr "No holdings found.")
          end)
  /\ compose_portfolio_message cfg w (JDict [("holdings", JList [])])
     = ([], inr "📊 Daily Portfolio Update")
  /\ (forall k kvs, In k ["trading_symbol"; "symbol"; "ticker"; "quantity"; "qty";
                          "average_price"; "avg_price"] ->
        lookup k kvs = None ->
        holding_line (JDict ((k, v) :: kvs)) = holding_line (JDict kvs)).
Proof.
  intros Hv. split; [|split; [|split; [|split]]].
  - intros pk kvs Hn. apply compose_same_resolution.
    + unfold resolve_nested. rewrite !get_d_cons, !get_cons. eqb_lits.
      rewrite !bind_ret, get_cons. eqb_lits. rewrite (get_dict pk).
      assert (Hg : getv pk "holdings" = JNull) by (unfold getv; now rewrite Hn).
      rewrite Hg, !por_ret, Hv. reflexivity.
    + right. split; reflexivity.
  - intros dk kvs Hn. apply compose_same_resolution.
    + unfold resolve_nested. rewrite !get_d_cons, !get_cons. eqb_lits.
      rewrite !bind_ret, get_cons. eqb_lits. rewrite (get_dict dk).
      assert (Hg : getv dk "holdings" = JNull) by (unfold getv; now rewrite Hn).
      rewrite Hg, !por_ret, Hv. reflexivity.
    + left. reflexivity.
  - intros kvs Hp Hpf Hd Hdf Hh. rewrite compose_first_truthy by auto.
    unfold first_truthy_holdings, or_else. rewrite Hpf, Hdf, Hh. reflexivity.
  - vm_compute. reflexivity.
  - intros k kvs Hk Hn. rewrite !holding_line_dict.
    unfold symbol_of, qty_of, avg_of, or_else, getv.
    simpl in Hk.
    destruct Hk as [<-|[<-|[<-|[<-|[<-|[<-|[<-|[]]]]]]]]; simpl lookup;
      eqb_lits; rewrite Hn, Hv; reflexivity.
Qed.

Lemma C9_falsy_is_absent_witness :
  truthy (JList []) = false
  /\ compose_portfolio_message unconfigured offline
       (JDict [("payload", JDict [("holdings", JList []); ("count", JInt 0)]);
               ("data", JDict [("holdings", JList [tcs_holding])])])
     = compose_portfolio_message unconfigured offline
         (JDict [("payload", JDict [("count", JInt 0)]);
                 ("data", JDict [("holdings", JList [tcs_holding])])]).
Proof.
  split; [reflexivity|].
  apply (proj1 (C9_falsy_is_absent unconfigured offline (JList []) eq_refl)).
  reflexivity.
Defined.

(** ** C10 *)

(** Lines 97-105 find no text when there is no choice, or when the first
    choice's content and text are both falsy. *)
Lemma extract_text_empty (kvs : list (string * json)) :
  lookup "choices" kvs = None
  \/ lookup "choices" kvs = Some (JList [])
  \/ (exists c rest, lookup "choices" kvs = Some (JList (JDict c :: rest))
        /\ absent_or_dict c "message"
        /\ truthy (message_content c) = false
        /\ truthy (getv c "text") = false) ->
  extract_text (JDict kvs) = ([], inr (JStr "")).
Proof.
  intros Hc. unfold extract_text, get_d at 1.
  destruct Hc as [Hc | [Hc | [c [rest [Hc [Ha [Hm Htx]]]]]]]; rewrite Hc; try reflexivity.
  rewrite bind_ret. cbn [truthy is_list andb].
  unfold absent_or_dict, message_content in *. unfold get_d.
  destruct (lookup "message" c) as [m|].
  - destruct m; try destruct Ha. rewrite bind_ret, get_dict, bind_ret, Hm.
    rewrite get_dict, bind_ret, Htx. reflexivity.
  - rewrite bind_ret, get_dict, bind_ret. change (getv [] "content") with JNull.
    cbn [truthy]. rewrite get_dict, bind_ret, Htx. reflexivity.
Qed.

(** C10: a successful insight response with no choices, or whose first
    choice has an empty (falsy) content and text, gives the insight ["."]
    (the period appended to the empty text); it is not empty, so the
    holding's insight line is ["  ."] rather than the placeholder. *)
Theorem C10_empty_completion_gives_period (cfg : config) (w : world) (t : string)
    (resp : response) (kvs : list (string * json)) :
  env_truthy (PERPLEXITY_API_KEY cfg) = true ->
  (forall u hd p, http_post w u hd p = inr resp) ->
  (status_code resp < 400)%Z ->
  body resp = Some (JDict kvs) ->
  lookup "choices" kvs = None
  \/ lookup "choices" kvs = Some (JList [])
  \/ (exists c rest, lookup "choices" kvs = Some (JList (JDict c :: rest))
        /\ absent_or_dict c "message"
        /\ truthy (message_content c) = false
        /\ truthy (getv c "text") = false) ->
  ask_perplexity_for_insight cfg w t = ([EHttp PerplexityChat], inr ".")
  /\ insight_line "." = "  ."
  /\ insight_line "." <> placeholder_line
  /\ (forall h sym line, holding_line h = ([], inr (sym, line)) ->
        compose_lines cfg w [h] = ([EHttp PerplexityChat], inr [line; "  ."; ""])).
Proof.
  intros Hk Hp Hs Hb Hc.
  assert (Hask : forall t', ask_perplexity_for_insight cfg w t'
                            = ([EHttp PerplexityChat], inr ".")).
  { intros t'. unfold ask_perplexity_for_insight. rewrite Hk. cbn [negb].
    rewrite Hp. unfold raise_for_status.
    apply Z.ltb_lt in Hs.
    assert (Hle : Z.leb 400 (status_code resp) = false)
      by (apply Z.leb_gt, Z.ltb_lt; exact Hs).
    cbn -[Z.leb Z.ltb extract_text]. rewrite Hle. cbn -[extract_text].
    unfold resp_json. rewrite Hb. cbn -[extract_text].
    rewrite (extract_text_empty kvs Hc). reflexivity. }
  split; [apply Hask|].
  split; [reflexivity|]. split; [discriminate|].
  intros h sym line Hh. simpl. rewrite Hh. simpl. rewrite Hask. reflexivity.
Qed.

Lemma C10_empty_completion_gives_period_witness :
  ask_perplexity_for_insight perplexity_key
    (world_with JNull None (Some (JDict [("choices", JList [])]))) "TCS"
  = ([EHttp PerplexityChat], inr ".").
Proof.
  apply (C10_empty_completion_gives_period perplexity_key
           (world_with JNull None (Some (JDict [("choices", JList [])]))) "TCS"
           {| status_code := 200; body := Some (JDict [("choices", JList [])]) |}
           [("choices", JList [])]).
  - reflexivity.
  - intros u hd p. reflexivity.
  - reflexivity.
  - reflexivity.
  - right; left; reflexivity.
Defined.

(** * Further properties of the program *)

(** The events of a sequenced computation. *)
Lemma fst_bind {A B} (m : M A) (f : A -> M B) :
  fst (bind m f) = app (fst m) (match snd m with inl _ => [] | inr a => fst (f a) end).
Proof.
  destruct m as [t [e|a]]; simpl; [now rewrite app_nil_r|].
  destruct (f a); reflexivity.
Qed.

(** A sequenced computation that returns normally ran both parts to completion. *)
Lemma bind_inr {A B} (m : M A) (f : A -> M B) (t : list event) (b : B) :
  bind m f = (t, inr b) ->
  exists t1 a t2, m = (t1, inr a) /\ f a = (t2, inr b) /\ t = app t1 t2.
Proof.
  destruct m as [t1 [e|a]]; simpl; [congruence|].
  destruct (f a) as [t2 r] eqn:E. intros H; injection H as <- <-.
  exists t1, a, t2. auto.
Qed.

(** [d.get] emits no event. *)
Lemma get_silent (o : json) (k : string) : fst (get o k) = [].
Proof. destruct o; reflexivity. Qed.

Lemma get_d_silent (o : json) (k : string) (d : json) : fst (get_d o k d) = [].
Proof. destruct o; reflexivity. Qed.

Lemma por_silent (a b : M json) : fst a = [] -> fst b = [] -> fst (por a b) = [].
Proof.
  intros Ha Hb. unfold por. rewrite fst_bind, Ha. simpl.
  destruct (snd a) as [e|x]; [reflexivity|]. destruct (truthy x); [reflexivity | exact Hb].
Qed.

(** Lines 117-121 emit no event. *)
Lemma resolve_nested_silent (hj : json) : fst (resolve_nested hj) = [].
Proof.
  unfold resolve_nested.
  repeat apply por_silent;
    try (rewrite fst_bind, get_d_silent; destruct (snd _); [reflexivity | apply get_silent]).
  apply get_silent.
Qed.

(** Lines 130-138 for one holding: no event; it fails, with
    [AttributeError], exactly when the holding is not a dict or its
    resolved symbol is not a string. *)
Lemma holding_line_cases (h : json) :
  (holding_ok h = true -> exists s l, holding_line h = ([], inr (s, l)))
  /\ (holding_ok h = false -> holding_line h = ([], inl AttributeError)).
Proof.
  destruct h as [| | | | | |kvs]; try (split; [discriminate | reflexivity]).
  rewrite holding_line_dict. unfold holding_ok.
  destruct (symbol_of kvs);
    (split; [intros H; try discriminate H | intros H; try discriminate H; reflexivity]).
  eexists _, _. reflexivity.
Qed.

Lemma bind_pair {A B} (t : list event) (a : A) (f : A -> M B) :
  bind (t, inr a) f = (app t (fst (f a)), snd (f a)).
Proof. simpl. destruct (f a); reflexivity. Qed.


(** With no insight key, the loop emits nothing: when every holding is a
    dict whose resolved symbol is a string, each holding gives its line,
    the placeholder line and a blank line; otherwise it raises
    [AttributeError]. *)
Theorem X_compose_lines_no_key (cfg : config) (w : world) (hs : list json) :
  env_truthy (PERPLEXITY_API_KEY cfg) = false ->
  (forallb holding_ok hs = true ->
     exists ls, Forall2 (fun h l => exists s, holding_line h = ([], inr (s, l))) hs ls
       /\ compose_lines cfg w hs
          = ([], inr (flat_map (fun l => [l; placeholder_line; ""]) ls)))
  /\ (forallb holding_ok hs = false -> compose_lines cfg w hs = ([], inl AttributeError)).
Proof.
  intros Hk. induction hs as [|h hs IH].
  - split; [intros _; exists []; split; [constructor | reflexivity] | discriminate].
  - destruct IH as [IHok IHko]. cbn [forallb].
    destruct (holding_ok h) eqn:Ho; cbn [andb].
    + destruct (proj1 (holding_line_cases h) Ho) as [s [l Hh]].
      split.
      * intros Hr. destruct (IHok Hr) as [ls [Hf Hc]].
        exists (l :: ls). split; [constructor; [exists s; exact Hh | exact Hf]|].
        cbn [compose_lines]. rewrite Hh, bind_pair. cbn [fst snd].
        rewrite (ask_unconfigured cfg w s Hk), bind_pair. cbn [fst snd].
        rewrite Hc. reflexivity.
      * intros Hr. cbn [compose_lines]. rewrite Hh, bind_pair. cbn [fst snd].
        rewrite (ask_unconfigured cfg w s Hk), bind_pair. cbn [fst snd].
        rewrite (IHko Hr). reflexivity.
    + split; [discriminate|]. intros _. cbn [compose_lines].
      rewrite (proj2 (holding_line_cases h) Ho). reflexivity.
Qed.

(** Each insight request failing on its own (an exception or a 4xx/5xx
    status), the insight fetch logs a warning and yields [""]. *)
Lemma ask_each_request_fails (cfg : config) (w : world) (t : string) :
  env_truthy (PERPLEXITY_API_KEY cfg) = true ->
  (forall u hd p, (exists e, http_post w u hd p = inl e)
                  \/ (exists resp, http_post w u hd p = inr resp
                                   /\ (400 <= status_code resp < 600)%Z)) ->
  ask_perplexity_for_insight cfg w t
  = ([EHttp PerplexityChat; ELog Warning "Perplexity API call failed for %s: %s"], inr "").
Proof.
  intros Hk Hf. unfold ask_perplexity_for_insight. rewrite Hk. cbn [negb].
  match goal with |- context [http_post w ?u ?h ?p] =>
    destruct (Hf u h p) as [[e He] | [resp [Hr [Hlo Hhi]]]] end.
  - rewrite He. reflexivity.
  - rewrite Hr. unfold raise_for_status.
    apply Z.leb_le in Hlo. apply Z.ltb_lt in Hhi.
    cbn -[Z.leb Z.ltb]. rewrite Hlo, Hhi. reflexivity.
Qed.

(** With the insight key set but every insight request failing (an
    exception or a 4xx/5xx status), composition does not abort: each
    holding gets one request, one warning and the placeholder line.  A
    holding that is not a dict, or whose symbol is not a string, still
    raises [AttributeError]. *)
Theorem X_compose_lines_failed_insights (cfg : config) (w : world) (hs : list json) :
  env_truthy (PERPLEXITY_API_KEY cfg) = true ->
  (forall u hd p, (exists e, http_post w u hd p = inl e)
                  \/ (exists resp, http_post w u hd p = inr resp
                                   /\ (400 <= status_code resp < 600)%Z)) ->
  (forallb holding_ok hs = true ->
     exists ls, Forall2 (fun h l => exists s, holding_line h = ([], inr (s, l))) hs ls
       /\ compose_lines cfg w hs
          = (flat_map (fun _ => [EHttp PerplexityChat;
                                 ELog Warning "Perplexity API call failed for %s: %s"]) hs,
             inr (flat_map (fun l => [l; placeholder_line; ""]) ls)))
  /\ (forallb holding_ok hs = false -> snd (compose_lines cfg w hs) = inl AttributeError).
Proof.
  intros Hk Hf. induction hs as [|h hs IH].
  - split; [intros _; exists []; split; [constructor | reflexivity] | discriminate].
  - destruct IH as [IHok IHko]. cbn [forallb].
    destruct (holding_ok h) eqn:Ho; cbn [andb].
    + destruct (proj1 (holding_line_cases h) Ho) as [s [l Hh]].
      split.
      * intros Hr. destruct (IHok Hr) as [ls [Hl Hc]].
        exists (l :: ls). split; [constructor; [exists s; exact Hh | exact Hl]|].
        cbn [compose_lines]. rewrite Hh, bind_pair. cbn [fst snd].
        rewrite (ask_each_request_fails cfg w s Hk Hf), bind_pair. cbn [fst snd].
        rewrite Hc, bind_pair. cbn [fst snd app flat_map]. rewrite app_nil_r. reflexivity.
      * intros Hr. cbn [compose_lines]. rewrite Hh, bind_pair. cbn [fst snd].
        rewrite (ask_each_request_fails cfg w s Hk Hf), bind_pair. cbn [fst snd].
        pose proof (IHko Hr) as Hs. destruct (compose_lines cfg w hs) as [t r].
        cbn in Hs. subst r. reflexivity.
    + split; [discriminate|]. intros _. cbn [compose_lines].
      rewrite (proj2 (holding_line_cases h) Ho). reflexivity.
Qed.

Lemma compose_lines_silent (cfg : config) (w : world) (hs : list json) :
  env_truthy (PERPLEXITY_API_KEY cfg) = false -> fst (compose_lines cfg w hs) = [].
Proof.
  intros Hk. induction hs as [|h hs IH]; [reflexivity|].
  cbn [compose_lines]. rewrite fst_bind.
  destruct (holding_ok h) eqn:Ho.
  - destruct (proj1 (holding_line_cases h) Ho) as [s [l Hh]]. rewrite Hh. cbn [fst snd app].
    rewrite fst_bind, (ask_unconfigured cfg w _ Hk). cbn [fst snd app].
    rewrite fst_bind, IH. cbn [app]. destruct (snd (compose_lines cfg w hs)); reflexivity.
  - rewrite (proj2 (holding_line_cases h) Ho). reflexivity.
Qed.

(** With no insight key, composing the message makes no network request
    for any holdings response: it emits nothing, or only the warning about
    an unexpected shape. *)
Theorem X_compose_no_request_without_key (cfg : config) (w : world) (hj : json) :
  env_truthy (PERPLEXITY_API_KEY cfg) = false ->
  fst (compose_portfolio_message cfg w hj) = []
  \/ fst (compose_portfolio_message cfg w hj)
     = [ELog Warning "Unexpected holdings JSON shape; cannot find holdings list."].
Proof.
  intros Hk. unfold compose_portfolio_message.
  set (A := if is_dict hj then resolve_nested hj else ret JNull).
  assert (HA : fst A = []).
  { unfold A. destruct (is_dict hj); [apply resolve_nested_silent | reflexivity]. }
  rewrite fst_bind, HA. cbn [app].
  destruct (snd A) as [e|hl]; [left; reflexivity|].
  set (B := if negb (is_list hl) then _ else _).
  assert (HB : fst B = []).
  { unfold B. destruct (negb (is_list hl)); [|reflexivity].
    rewrite fst_bind, get_silent. cbn [app].
    destruct (snd (get hj "payload")) as [e|p]; [reflexivity|].
    destruct (is_list p); [apply get_silent | reflexivity]. }
  rewrite fst_bind, HB. cbn [app].
  destruct (snd B) as [e|hl2]; [left; reflexivity|].
  destruct hl2; try (right; reflexivity).
  left. unfold render_holdings. rewrite fst_bind, compose_lines_silent by exact Hk.
  destruct (snd (compose_lines cfg w l)); reflexivity.
Qed.

(** The fallback of lines 123-125 never yields a list: whenever
    [payload] is a list, line 119 already calls [.get] on that list and
    the composition raises [AttributeError]. *)
Theorem X_payload_list_raises (cfg : config) (w : world) (kvs : list (string * json))
    (l : list json) :
  lookup "payload" kvs = Some (JList l) ->
  compose_portfolio_message cfg w (JDict kvs) = ([], inl AttributeError).
Proof.
  intros Hp. unfold compose_portfolio_message, resolve_nested, get_d at 1.
  cbn [is_dict]. rewrite Hp. reflexivity.
Qed.

Lemma lstrip_app_ne (a b : string) : lstrip a <> "" -> lstrip (a ++ b) = lstrip a ++ b.
Proof.
  induction a as [|c a IH]; simpl; [intros H; contradiction H; reflexivity|].
  destruct (is_space c); [exact IH | reflexivity].
Qed.

Lemma lstrip_app_empty (a b : string) : lstrip a = "" -> lstrip (a ++ b) = lstrip b.
Proof.
  induction a as [|c a IH]; simpl; [reflexivity|].
  destruct (is_space c); [exact IH | discriminate].
Qed.

Lemma rstrip_prefix (p x : string) :
  lstrip (srev p) = srev p -> exists y, rstrip (p ++ x) = p ++ y.
Proof.
  intros Hp. unfold rstrip. rewrite srev_app.
  destruct (lstrip (srev x)) as [|c s] eqn:E.
  - rewrite lstrip_app_empty by exact E. rewrite Hp, srev_involutive.
    exists "". now rewrite sapp_nil_r.
  - rewrite lstrip_app_ne by (rewrite E; discriminate). rewrite E, srev_app, srev_involutive.
    exists (srev (String c s)). reflexivity.
Qed.

(** Stripping keeps the header at the start of the joined lines. *)
Lemma header_prefix (lines : list string) :
  exists y, py_strip (py_join nl (header_line :: lines)) = "📊 Daily Portfolio Update" ++ y.
Proof.
  assert (Hj : exists x, py_join nl (header_line :: lines) = "📊 Daily Portfolio Update" ++ x).
  { destruct lines as [|l ls].
    - exists nl. reflexivity.
    - exists (nl ++ nl ++ py_join nl (l :: ls)). unfold header_line.
      rewrite py_join_cons by discriminate. apply sapp_assoc. }
  destruct Hj as [x Hx]. unfold py_strip. rewrite Hx.
  rewrite lstrip_app_ne by (vm_compute; discriminate).
  change (lstrip "📊 Daily Portfolio Update") with "📊 Daily Portfolio Update".
  apply rstrip_prefix. vm_compute. reflexivity.
Qed.

(** Every message composed without an exception is ["No holdings found."]
    or starts with the header ["📊 Daily Portfolio Update"]. *)
Theorem X_message_starts_with_header (cfg : config) (w : world) (hj : json)
    (t : list event) (msg : string) :
  compose_portfolio_message cfg w hj = (t, inr msg) ->
  msg = "No holdings found." \/ exists rest, msg = "📊 Daily Portfolio Update" ++ rest.
Proof.
  unfold compose_portfolio_message. intros H.
  apply bind_inr in H as [t1 [hl [t2 [_ [H _]]]]].
  apply bind_inr in H as [t3 [hl2 [t4 [_ [H _]]]]].
  destruct hl2; try (left; injection H as _ <-; reflexivity).
  unfold render_holdings in H. apply bind_inr in H as [t5 [lines [t6 [_ [H _]]]]].
  injection H as _ <-. right. apply header_prefix.
Qed.

(** Lines 96-105 read the first choice only: a non-empty string
    [message.content] is the text; when the content is falsy, a non-empty
    string [text] of the choice is the text. *)
Theorem X_extract_text_first_choice (kvs c : list (string * json)) (rest : list json) :
  lookup "choices" kvs = Some (JList (JDict c :: rest)) ->
  (forall m s, lookup "message" c = Some (JDict m) -> getv m "content" = JStr s ->
     s <> "" -> extract_text (JDict kvs) = ([], inr (JStr s)))
  /\ (forall s, absent_or_dict c "message" -> truthy (message_content c) = false ->
        getv c "text" = JStr s -> s <> "" -> extract_text (JDict kvs) = ([], inr (JStr s))).
Proof.
  intros Hc. split.
  - intros m s Hm Hs Hne. unfold extract_text, get_d at 1. rewrite Hc, bind_ret.
    cbn [truthy is_list andb]. unfold get_d.
    rewrite Hm, bind_ret, get_dict, bind_ret, Hs.
    cbn [truthy]. apply String.eqb_neq in Hne. rewrite Hne. cbn [negb].
    unfold index. rewrite Hm, bind_ret. unfold getv in Hs.
    destruct (lookup "content" m); [now subst | discriminate].
  - intros s Ha Hm Hs Hne. unfold absent_or_dict, message_content in *.
    assert (Ht : lookup "text" c = Some (JStr s))
      by (unfold getv in Hs; destruct (lookup "text" c); [now subst | discriminate]).
    apply String.eqb_neq in Hne.
    unfold extract_text, get_d at 1. rewrite Hc, bind_ret.
    cbn [truthy is_list andb]. unfold get_d.
    destruct (lookup "message" c) as [m|].
    + destruct m; try destruct Ha. rewrite bind_ret, get_dict, bind_ret, Hm.
      rewrite get_dict, bind_ret, Hs. cbn [truthy]. rewrite Hne. cbn [negb].
      unfold index. rewrite Ht. reflexivity.
    + rewrite bind_ret, get_dict, bind_ret. change (getv [] "content") with JNull.
      cbn [truthy]. rewrite get_dict, bind_ret, Hs. cbn [truthy]. rewrite Hne. cbn [negb].
      unfold index. rewrite Ht. reflexivity.
Qed.

(** [run] never raises, whatever the configuration and the services
    answer; its first event is the start log line. *)
Theorem X_run_always_returns (cfg : config) (w : world) :
  exists t, run cfg w = (ELog Info "Starting scheduled run." :: t, inr tt).
Proof.
  unfold run. cbn [log emit bind app].
  match goal with |- context [try_ ?m] => destruct m as [t r] end.
  cbn [try_ bind app].
  destruct r as [e|x].
  - eexists. reflexivity.
  - eexists. cbn. rewrite app_nil_r. reflexivity.
Qed.

(** A failure of the TOTP generation ends the run before any request;
    a failure of the token exchange ends it after that one request.  Both
    are logged and the run returns normally. *)
Theorem X_run_early_failures (cfg : config) (w : world) :
  (forall e, totp_now w (GROWW_API_SECRET cfg) = inl e ->
     run cfg w = ([ELog Info "Starting scheduled run."; ELog Exception "Run failed: %s"],
                  inr tt))
  /\ (forall totp e, totp_now w (GROWW_API_SECRET cfg) = inr totp ->
        groww_get_access_token w (GROWW_API_KEY cfg) totp = inl e ->
        run cfg w = ([ELog Info "Starting scheduled run."; ELog Info "Generated TOTP.";
                      EHttp GrowwToken; ELog Exception "Run failed: %s"], inr tt)).
Proof.
  split.
  - intros e Ht. unfold run, get_groww_access_token. rewrite Ht. reflexivity.
  - intros totp e Ht Hg. unfold run, get_groww_access_token. rewrite Ht.
    cbn -[groww_get_access_token]. rewrite Hg. reflexivity.
Qed.

(** The token helper on a successful exchange. *)
Lemma token_ok (cfg : config) (w : world) (totp : string) (tok : json) :
  totp_now w (GROWW_API_SECRET cfg) = inr totp ->
  groww_get_access_token w (GROWW_API_KEY cfg) totp = inr tok ->
  truthy tok = true ->
  get_groww_access_token w (GROWW_API_KEY cfg) (GROWW_API_SECRET cfg)
  = ([ELog Info "Generated TOTP."; EHttp GrowwToken], inr tok).
Proof.
  intros Ht Hg Htr. unfold get_groww_access_token. rewrite Ht.
  cbn -[groww_get_access_token truthy]. rewrite Hg. cbn -[truthy]. rewrite Htr. reflexivity.
Qed.

Lemma fetch_fails (w : world) (tok : json) :
  (exists e, forall u hd, http_get w u hd = inl e)
  \/ (exists resp, (forall u hd, http_get w u hd = inr resp)
                   /\ ((400 <= status_code resp < 600)%Z \/ body resp = None)) ->
  exists e, fetch_holdings w tok = ([EHttp GrowwHoldings], inl e).
Proof.
  intros [[e He] | [resp [Hr Hs]]]; unfold fetch_holdings.
  - rewrite He. eexists. reflexivity.
  - rewrite Hr. unfold raise_for_status, resp_json. cbn -[Z.leb Z.ltb].
    destruct (Z.leb 400 (status_code resp) && Z.ltb (status_code resp) 600) eqn:E.
    + eexists. reflexivity.
    + destruct Hs as [[Hlo Hhi] | Hb].
      * apply Z.leb_le in Hlo. apply Z.ltb_lt in Hhi. rewrite Hlo, Hhi in E. discriminate.
      * rewrite Hb. eexists. reflexivity.
Qed.

(** When the holdings request raises, answers with a 4xx/5xx status, or
    returns a body that is not JSON, the run logs the failure and stops:
    no insight request, no message sent or printed. *)
Theorem X_run_holdings_fetch_fails (cfg : config) (w : world) (totp : string) (tok : json) :
  totp_now w (GROWW_API_SECRET cfg) = inr totp ->
  groww_get_access_token w (GROWW_API_KEY cfg) totp = inr tok ->
  truthy tok = true ->
  (exists e, forall u hd, http_get w u hd = inl e)
  \/ (exists resp, (forall u hd, http_get w u hd = inr resp)
                   /\ ((400 <= status_code resp < 600)%Z \/ body resp = None)) ->
  run cfg w = ([ELog Info "Starting scheduled run."; ELog Info "Generated TOTP.";
                EHttp GrowwToken; EHttp GrowwHoldings; ELog Exception "Run failed: %s"],
               inr tt).
Proof.
  intros Ht Hg Htr Hf.
  destruct (fetch_fails w tok Hf) as [e He].
  unfold run. cbn -[get_groww_access_token fetch_holdings].
  rewrite (token_ok cfg w totp tok Ht Hg Htr). cbn -[fetch_holdings].
  rewrite He. reflexivity.
Qed.

(** On a successful token exchange and holdings fetch, [run] composes
    the message from the decoded holdings body, logs it and hands exactly
    that message to [send_whatsapp]; the run returns normally. *)
Theorem X_run_delivers_composed_message (cfg : config) (w : world) (totp : string)
    (tok : json) (resp : response) (hj : json) (t : list event) (msg : string) :
  totp_now w (GROWW_API_SECRET cfg) = inr totp ->
  groww_get_access_token w (GROWW_API_KEY cfg) totp = inr tok ->
  truthy tok = true ->
  (forall u hd, http_get w u hd = inr resp) ->
  (status_code resp < 400)%Z ->
  body resp = Some hj ->
  compose_portfolio_message cfg w hj = (t, inr msg) ->
  run cfg w = (app [ELog Info "Starting scheduled run."; ELog Info "Generated TOTP.";
                    EHttp GrowwToken; EHttp GrowwHoldings]
                 (app t (ELog Info "Composed message: %s" :: fst (send_whatsapp cfg w msg))),
               inr tt).
Proof.
  intros Ht Hg Htr Hget Hs Hb Hc.
  assert (Hfetch : fetch_holdings w tok = ([EHttp GrowwHoldings], inr hj)).
  { unfold fetch_holdings. rewrite Hget. unfold raise_for_status, resp_json.
    apply Z.ltb_lt in Hs.
    assert (Hle : Z.leb 400 (status_code resp) = false)
      by (apply Z.leb_gt, Z.ltb_lt; exact Hs).
    cbn -[Z.leb Z.ltb]. rewrite Hle. cbn. rewrite Hb. reflexivity. }
  assert (Hsend : exists o, snd (send_whatsapp cfg w msg) = inr o).
  { unfold send_whatsapp. destruct (twilio_configured cfg); [|eexists; reflexivity].
    match goal with |- context [twilio_create w ?a ?b ?c ?d ?e] =>
      destruct (twilio_create w a b c d e) end; eexists; reflexivity. }
  destruct Hsend as [o Ho].
  unfold run. cbn -[get_groww_access_token fetch_holdings compose_portfolio_message
                    send_whatsapp].
  rewrite (token_ok cfg w totp tok Ht Hg Htr). cbn -[fetch_holdings compose_portfolio_message
                                                     send_whatsapp].
  rewrite Hfetch. cbn -[compose_portfolio_message send_whatsapp].
  rewrite Hc. cbn -[send_whatsapp].
  destruct (send_whatsapp cfg w msg) as [ts r]. cbn in Ho. subst r. cbn.
  rewrite !app_nil_r. reflexivity.
Qed.

(** Lines 130-138 for one holding emit no event; they fail, with
    [AttributeError], exactly when the holding is not a dict or its
    resolved symbol is not a string. *)
Theorem X_holding_line_outcome (h : json) :
  (holding_ok h = true -> exists s l, holding_line h = ([], inr (s, l)))
  /\ (holding_ok h = false -> holding_line h = ([], inl AttributeError)).
Proof. exact (holding_line_cases h). Qed.

Lemma X_holding_line_outcome_witness :
  holding_ok (JDict [("ticker", JInt 7)]) = false
  /\ holding_line (JDict [("ticker", JInt 7)]) = ([], inl AttributeError).
Proof.
  split; [reflexivity|].
  apply (proj2 (X_holding_line_outcome (JDict [("ticker", JInt 7)]))). reflexivity.
Defined.


Lemma X_compose_lines_no_key_witness :
  env_truthy (PERPLEXITY_API_KEY unconfigured) = false
  /\ compose_lines unconfigured offline [tcs_holding; JStr "INFY"]
     = ([], inl AttributeError).
Proof.
  split; [reflexivity|].
  apply (proj2 (X_compose_lines_no_key unconfigured offline [tcs_holding; JStr "INFY"]
                  eq_refl)).
  reflexivity.
Defined.

Lemma X_compose_lines_failed_insights_witness :
  env_truthy (PERPLEXITY_API_KEY perplexity_key) = true
  /\ exists ls, compose_lines perplexity_key
       (prompt_world (fun pr => if String.eqb pr (perplexity_prompt "TCS")
                                then inl RequestException
                                else inr {| status_code := 503; body := None |}))
       [tcs_holding; infy_holding]
     = ([EHttp PerplexityChat; ELog Warning "Perplexity API call failed for %s: %s";
         EHttp PerplexityChat; ELog Warning "Perplexity API call failed for %s: %s"],
        inr (flat_map (fun l => [l; placeholder_line; ""]) ls)).
Proof.
  split; [reflexivity|].
  destruct (proj1 (X_compose_lines_failed_insights perplexity_key
                     (prompt_world (fun pr => if String.eqb pr (perplexity_prompt "TCS")
                                              then inl RequestException
                                              else inr {| status_code := 503; body := None |}))
                     [tcs_holding; infy_holding] eq_refl
                     ltac:(intros u hd p; cbn [http_post prompt_world];
                           destruct (String.eqb (prompt_of p) (perplexity_prompt "TCS"));
                           [left; eexists; reflexivity
                           | right; eexists; split; [reflexivity | cbn; lia]]))
              eq_refl) as [ls [_ H]].
  exists ls. exact H.
Defined.

Lemma X_compose_no_request_without_key_witness :
  env_truthy (PERPLEXITY_API_KEY unconfigured) = false
  /\ (fst (compose_portfolio_message unconfigured offline tcs_response) = []
      \/ fst (compose_portfolio_message unconfigured offline tcs_response)
         = [ELog Warning "Unexpected holdings JSON shape; cannot find holdings list."]).
Proof.
  split; [reflexivity|].
  apply X_compose_no_request_without_key. reflexivity.
Defined.

Lemma X_payload_list_raises_witness :
  lookup "payload" [("payload", JList [])] = Some (JList [])
  /\ compose_portfolio_message unconfigured offline (JDict [("payload", JList [])])
     = ([], inl AttributeError).
Proof.
  split; [reflexivity|].
  apply (X_payload_list_raises unconfigured offline _ []). reflexivity.
Defined.

Lemma X_message_starts_with_header_witness :
  compose_portfolio_message unconfigured offline tcs_response = ([], inr tcs_expected)
  /\ (tcs_expected = "No holdings found."
      \/ exists rest, tcs_expected = "📊 Daily Portfolio Update" ++ rest).
Proof.
  split; [vm_compute; reflexivity|].
  apply (X_message_starts_with_header unconfigured offline tcs_response []).
  vm_compute. reflexivity.
Defined.

Lemma X_extract_text_first_choice_witness :
  extract_text (JDict [("choices", JList [JDict [("text", JStr "Up 2%.")];
                                          JDict [("text", JStr "ignored")]])])
  = ([], inr (JStr "Up 2%.")).
Proof.
  apply (proj2 (X_extract_text_first_choice
                  [("choices", JList [JDict [("text", JStr "Up 2%.")];
                                      JDict [("text", JStr "ignored")]])]
                  [("text", JStr "Up 2%.")] [JDict [("text", JStr "ignored")]] eq_refl)
           "Up 2%."); first [exact I | reflexivity | discriminate].
Defined.

Lemma X_run_early_failures_witness :
  totp_now offline (GROWW_API_SECRET unconfigured) = inl RequestException
  /\ run unconfigured offline
     = ([ELog Info "Starting scheduled run."; ELog Exception "Run failed: %s"], inr tt).
Proof.
  split; [reflexivity|].
  apply (proj1 (X_run_early_failures unconfigured offline) RequestException). reflexivity.
Defined.

Lemma X_run_holdings_fetch_fails_witness :
  run unconfigured (world_with (JStr "token") None None)
  = ([ELog Info "Starting scheduled run."; ELog Info "Generated TOTP.";
      EHttp GrowwToken; EHttp GrowwHoldings; ELog Exception "Run failed: %s"], inr tt).
Proof.
  apply (X_run_holdings_fetch_fails unconfigured (world_with (JStr "token") None None)
           "123456" (JStr "token") eq_refl eq_refl eq_refl).
  right. exists {| status_code := 200; body := None |}.
  split; [reflexivity | right; reflexivity].
Defined.

Lemma X_run_delivers_composed_message_witness :
  run unconfigured (world_with (JStr "token") (Some tcs_response) None)
  = ([ELog Info "Starting scheduled run."; ELog Info "Generated TOTP.";
      EHttp GrowwToken; EHttp GrowwHoldings; ELog Info "Composed message: %s";
      EPrint tcs_expected], inr tt).
Proof.
  apply (X_run_delivers_composed_message unconfigured
           (world_with (JStr "token") (Some tcs_response) None) "123456" (JStr "token")
           {| status_code := 200; body := Some tcs_response |} tcs_response []
           tcs_expected); try reflexivity.
  all: vm_compute; reflexivity.
Defined.
